(** * VisualizationEditor: a model of the editor client and of the
      execution core it talks to

    The first part embeds [frontend/src/components/VisualizationEditor.tsx]:
    the component state, its event handlers, [generateVisualization] and the
    rendered tree.  The second part models the execution core, which is
    described by the design document only. *)

From Stdlib Require Import String Ascii List Bool ZArith Lia.
Import ListNotations.
Open Scope string_scope.

(** ** JavaScript values the component handles *)

(** The double-quote character, used inside the R samples. *)
Definition dq : string := String (ascii_of_nat 34) EmptyString.

(** JavaScript truthiness of a string: only the empty string is falsy. *)
Definition truthy (s : string) : bool :=
  match s with
  | EmptyString => false
  | String _ _ => true
  end.

(** [s === t] on strings. *)
Definition str_eq (s t : string) : bool := String.eqb s t.

(** Own-property read [obj[key]] on an object literal; [None] is
    [undefined].  Members inherited from [Object.prototype] are left out:
    no menu of the component offers their names. *)
Fixpoint prop {A : Type} (key : string) (obj : list (string * A)) : option A :=
  match obj with
  | [] => None
  | (k, v) :: rest => if String.eqb key k then Some v else prop key rest
  end.

(** ** SAMPLE_CODES *)

Module Samples.

Definition python_static : string :=
  "import numpy as np

x = np.linspace(0, 10, 100)
y = np.sin(x)

plt.figure(figsize=(10, 6))
plt.plot(x, y, 'b-', label='sin(x)')
plt.title('Static Plot Example')
plt.xlabel('x')
plt.ylabel('sin(x)')
plt.grid(True)
plt.legend()".

Definition python_interactive : string :=
  "import numpy as np

x = np.linspace(0, 10, 100)
y = np.sin(x)

fig = px.line(x=x, y=y, title='Interactive Plot Example')
fig.update_layout(
    xaxis_title='x',
    yaxis_title='sin(x)',
    showlegend=True
)".

Definition python_3d : string :=
  "import numpy as np

x = np.linspace(-5, 5, 50)
y = np.linspace(-5, 5, 50)
X, Y = np.meshgrid(x, y)
Z = np.sin(np.sqrt(X**2 + Y**2))

fig = go.Figure(data=[go.Surface(z=Z, x=x, y=y)])
fig.update_layout(
    title='3D Surface Plot',
    scene=dict(
        xaxis_title='X',
        yaxis_title='Y',
        zaxis_title='Z'
    )
)".

Definition r_static : string :=
  "x <- seq(0, 10, length.out = 100)
y <- sin(x)
df <- data.frame(x = x, y = y)

p <- ggplot(df, aes(x = x, y = y)) +
  geom_line(color = " ++ dq ++
  "blue" ++ dq ++
  ") +
  labs(title = " ++ dq ++
  "Static Plot Example" ++ dq ++
  ",
       x = " ++ dq ++
  "x" ++ dq ++
  ",
       y = " ++ dq ++
  "sin(x)" ++ dq ++
  ") +
  theme_minimal()".

Definition r_interactive : string :=
  "x <- seq(0, 10, length.out = 100)
y <- sin(x)
df <- data.frame(x = x, y = y)

p <- plot_ly(data = df, x = ~x, y = ~y, type = 'scatter', mode = 'lines')
p$x$layout <- list(
  title = 'Interactive Plot Example',
  xaxis = list(title = 'x'),
  yaxis = list(title = 'sin(x)'),
  width = 800,
  height = 600
)".

Definition r_3d : string :=
  "library(plotly)

x <- seq(-5, 5, length.out = 50)
y <- seq(-5, 5, length.out = 50)
grid <- expand.grid(x = x, y = y)
grid$z <- sin(sqrt(grid$x^2 + grid$y^2))

z_matrix <- matrix(grid$z, nrow = 50, ncol = 50)
x_vec <- unique(grid$x)
y_vec <- unique(grid$y)

p <- plot_ly(type = 'surface',
            x = x_vec,
            y = y_vec,
            z = z_matrix,
            colorscale = 'Viridis')
p$x$layout <- list(
  title = '3D Surface Plot',
  scene = list(
    xaxis = list(title = 'X'),
    yaxis = list(title = 'Y'),
    zaxis = list(title = 'Z')
  ),
  width = 800,
  height = 600
)".

End Samples.

(** The table [SAMPLE_CODES], keyed by language and then by
    visualization type, in the order of the source. *)
Definition SAMPLE_CODES : list (string * list (string * string)) :=
  [ ("python", [ ("static", Samples.python_static);
                 ("interactive", Samples.python_interactive);
                 ("3d", Samples.python_3d) ]);
    ("r",      [ ("static", Samples.r_static);
                 ("interactive", Samples.r_interactive);
                 ("3d", Samples.r_3d) ]) ].

(** The result of evaluating [SAMPLE_CODES[l][v]]: a string, [undefined]
    when [v] is not a key of [SAMPLE_CODES[l]], or a TypeError when
    [SAMPLE_CODES[l]] is itself [undefined]. *)
Inductive Lookup2 :=
| Found (text : string)
| Undefined
| TypeError.

Definition sample (l v : string) : Lookup2 :=
  match prop l SAMPLE_CODES with
  | None => TypeError
  | Some byType =>
      match prop v byType with
      | None => Undefined
      | Some text => Found text
      end
  end.

(** ** Component state *)

(** The seven [useState] cells of [VisualizationEditor].  [code] is declared
    a string; the unchecked cast in the change handlers can store
    [undefined] in it, which [None] stands for. *)
Record State := mkState {
  language : string;
  vizType : string;
  code : option string;
  visualization : string;
  visualizationType : string;
  error : string;
  loading : bool
}.

Definition setLanguage (v : string) (s : State) : State :=
  mkState v (vizType s) (code s) (visualization s) (visualizationType s)
          (error s) (loading s).

Definition setVizType (v : string) (s : State) : State :=
  mkState (language s) v (code s) (visualization s) (visualizationType s)
          (error s) (loading s).

Definition setCode (v : option string) (s : State) : State :=
  mkState (language s) (vizType s) v (visualization s) (visualizationType s)
          (error s) (loading s).

Definition setVisualization (v : string) (s : State) : State :=
  mkState (language s) (vizType s) (code s) v (visualizationType s)
          (error s) (loading s).

Definition setVisualizationType (v : string) (s : State) : State :=
  mkState (language s) (vizType s) (code s) (visualization s) v
          (error s) (loading s).

Definition setError (v : string) (s : State) : State :=
  mkState (language s) (vizType s) (code s) (visualization s)
          (visualizationType s) v (loading s).

Definition setLoading (v : bool) (s : State) : State :=
  mkState (language s) (vizType s) (code s) (visualization s)
          (visualizationType s) (error s) v.

(** [undefined] or a string, as a table read hands it to [setCode]. *)
Definition as_code (r : Lookup2) : option string :=
  match r with
  | Found text => Some text
  | _ => None
  end.

(** The [useEffect] cleanup only calls [URL.revokeObjectURL]; it reads
    [visualization] and [visualizationType] and writes no cell, so it has
    no counterpart here. *)

(** The state of the first render: [useState('python')],
    [useState('static')], [useState(SAMPLE_CODES[language][vizType])],
    three empty strings and [false]. *)
Definition initial : State :=
  mkState "python" "static" (as_code (sample "python" "static"))
          EmptyString EmptyString EmptyString false.

(** ** Event handlers *)

(** How a handler ends: normally, or by a thrown TypeError.  Either way it
    carries the state with the setter calls made so far applied. *)
Inductive Completion :=
| Normal (s : State)
| Thrown (s : State).

Definition state_of (c : Completion) : State :=
  match c with
  | Normal s => s
  | Thrown s => s
  end.

(** [handleLanguageChange]: [setLanguage(newLanguage)] and then
    [setCode(SAMPLE_CODES[newLanguage][vizType])], with [vizType] the value
    of the current render. *)
Definition handleLanguageChange (newLanguage : string) (s : State) : Completion :=
  let s1 := setLanguage newLanguage s in
  match sample newLanguage (vizType s) with
  | TypeError => Thrown s1
  | r => Normal (setCode (as_code r) s1)
  end.

(** [handleVizTypeChange]: [setVizType(newType)] and then
    [setCode(SAMPLE_CODES[language][newType])]. *)
Definition handleVizTypeChange (newType : string) (s : State) : Completion :=
  let s1 := setVizType newType s in
  match sample (language s) newType with
  | TypeError => Thrown s1
  | r => Normal (setCode (as_code r) s1)
  end.

(** [handleCodeChange]: the editor reports a string or [undefined]; only a
    string is stored. *)
Definition handleCodeChange (value : option string) (s : State) : State :=
  match value with
  | Some text => setCode (Some text) s
  | None => s
  end.

(** ** The request and what axios hands back *)

(** An HTTP request as [axios.post(url, data)] issues it.  The body lists
    the members of the serialised JSON object in order. *)
Record Request := mkRequest {
  method : string;
  url : string;
  body : list (string * string)
}.

Definition origin : string := "http://localhost:8000".
Definition endpoint : string := "/generate-visualization".

(** One member of an object literal under [JSON.stringify]: a member whose
    value is [undefined] is omitted. *)
Definition member (key : string) (value : option string) : list (string * string) :=
  match value with
  | Some v => [(key, v)]
  | None => []
  end.

(** [interface VisualizationResponse { type: string; content: string }];
    [type] is a keyword here, hence [type_]. *)
Record VisualizationResponse := mkResponse {
  type_ : string;
  content : string
}.

(** The JSON body of a failure response, as far as the client reads it:
    [detail] is a string, as the wire contract has it, or absent. *)
Record ErrorData := mkErrorData {
  detail : option string
}.

(** [err.response]: the status and the parsed body, which can be absent. *)
Record ErrorResponse := mkErrorResponse {
  status : Z;
  data : option ErrorData
}.

(** The value caught by [catch (err: any)]; [response] is absent when no
    reply arrived at all. *)
Record AxiosError := mkAxiosError {
  response : option ErrorResponse
}.

(** How the awaited [axios.post] settles: fulfilled with the body of a 2xx
    reply, or rejected. *)
Inductive AxiosResult :=
| Fulfilled (data : VisualizationResponse)
| Rejected (err : AxiosError).

(** axios's default [validateStatus]. *)
Definition validateStatus (st : Z) : bool := ((200 <=? st) && (st <? 300))%Z.

(** The rejection axios produces for a reply with status [st] whose JSON
    body carries the string [d] as [detail]. *)
Definition failure_response (st : Z) (d : string) : AxiosResult :=
  Rejected (mkAxiosError (Some (mkErrorResponse st (Some (mkErrorData (Some d)))))).

(** [err.response?.data?.detail]. *)
Definition detail_of (err : AxiosError) : option string :=
  match response err with
  | None => None
  | Some r =>
      match data r with
      | None => None
      | Some d => detail d
      end
  end.

(** [x || fallback] for [x] a string or [undefined]. *)
Definition or_else (x : option string) (fallback : string) : string :=
  match x with
  | Some v => if truthy v then v else fallback
  | None => fallback
  end.

(** ** generateVisualization *)

(** The part before the [await]: the four setter calls and the call of
    [axios.post] with the object [{ code, language, viz_type: vizType }]
    built from the values of the current render. *)
Definition generateVisualization_request (s : State) : Request :=
  mkRequest "POST" (origin ++ endpoint)
            (member "code" (code s) ++
             member "language" (Some (language s)) ++
             member "viz_type" (Some (vizType s))).

Definition generateVisualization_begin (s : State) : State :=
  setVisualizationType EmptyString
    (setVisualization EmptyString
      (setError EmptyString
        (setLoading true s))).

(** The [try] body after the [await], for a fulfilled promise. *)
Definition on_response (d : VisualizationResponse) (s : State) : State :=
  if str_eq (type_ d) "image" then
    setVisualization (content d) (setVisualizationType "image" s)
  else if str_eq (type_ d) "html" then
    setVisualization (content d) (setVisualizationType "html" s)
  else
    setError "No visualization was generated" s.

(** The [catch] clause. *)
Definition on_error (err : AxiosError) (s : State) : State :=
  setError (or_else (detail_of err) "An error occurred") s.

(** The part after the [await]: [try] body or [catch] clause, then the
    [finally] clause. *)
Definition generateVisualization_settle (r : AxiosResult) (s : State) : State :=
  setLoading false
    (match r with
     | Fulfilled d => on_response d s
     | Rejected err => on_error err s
     end).

(** One whole call: the state it leaves and the requests it issued, for a
    promise that settles as [r]. *)
Definition generateVisualization (r : AxiosResult) (s : State) : State * list Request :=
  (generateVisualization_settle r (generateVisualization_begin s),
   [generateVisualization_request s]).

(** ** The rendered tree *)

(** The elements of the returned JSX that carry state or content; layout
    wrappers ([Stack], [StyledPaper], [Box], ...) are flattened away. *)
Inductive Element :=
| Title (text : string)
| Select (label value : string) (items : list (string * string))
| StyledButton (disabled spinner : bool) (text : string)
| Editor (defaultLanguage : string) (value : option string)
| ErrorMessage (text : string)
| Img (src alt : string)
| Iframe (srcDoc title sandbox : string).

(** The part of the tree that is always there: title, the two menus with
    their [MenuItem] values and captions, the button and the editor. *)
Definition controls (s : State) : list Element :=
  [ Title "Visualization Editor";
    Select "Language" (language s)
           [ ("python", "Python"); ("r", "R") ];
    Select "Visualization Type" (vizType s)
           [ ("static", "Static"); ("interactive", "Interactive"); ("3d", "3D") ];
    StyledButton (loading s) (loading s)
                 (if loading s then "Generating..." else "Generate Visualization");
    Editor (language s) (code s) ].

(** [{error && (...)}]. *)
Definition error_view (s : State) : list Element :=
  if truthy (error s) then [ErrorMessage (error s)] else [].

(** [{visualization && (...)}], with the conditional on
    [visualizationType === 'image'] inside. *)
Definition visualization_view (s : State) : list Element :=
  if truthy (visualization s) then
    [ if str_eq (visualizationType s) "image" then
        Img ("data:image/png;base64," ++ visualization s) "Visualization"
      else
        Iframe (visualization s) "Interactive Visualization"
               "allow-scripts allow-same-origin allow-popups" ]
  else [].

Definition render (s : State) : list Element :=
  controls s ++ error_view s ++ visualization_view s.

(** The values a rendered menu offers: the [MenuItem] values of the
    [Select] with the given label. *)
Fixpoint menu (label : string) (tree : list Element) : list string :=
  match tree with
  | [] => []
  | Select l _ items :: rest =>
      if String.eqb l label then map fst items else menu label rest
  | _ :: rest => menu label rest
  end.

(** Whether the rendered button can be clicked. *)
Fixpoint button_enabled (tree : list Element) : bool :=
  match tree with
  | [] => false
  | StyledButton disabled _ _ :: _ => negb disabled
  | _ :: rest => button_enabled rest
  end.

(** Whether an element shows a visualization. *)
Definition is_visual (e : Element) : bool :=
  match e with
  | Img _ _ | Iframe _ _ _ => true
  | _ => false
  end.

(** ** A session with the component *)

(** What can happen to the mounted component: a choice in one of the two
    menus, a change reported by the editor, a click on the button, and the
    settling of a request in flight. *)
Inductive Event :=
| SelectLanguage (value : string)
| SelectVizType (value : string)
| EditorChange (value : option string)
| ClickGenerate
| Settle (r : AxiosResult).

(** The component state together with the requests issued so far and the
    number of them not yet settled. *)
Record Session := mkSession {
  view : State;
  inflight : nat;
  sent : list Request
}.

Definition start : Session := mkSession initial 0 [].

Definition mem (v : string) (l : list string) : bool :=
  existsb (String.eqb v) l.

(** An event can occur only if the rendered tree offers it: a menu fires
    with the value of one of its items, the button only while enabled, and
    a request settles only if one is in flight. *)
Definition offered (x : Session) (e : Event) : bool :=
  match e with
  | SelectLanguage v => mem v (menu "Language" (render (view x)))
  | SelectVizType v => mem v (menu "Visualization Type" (render (view x)))
  | EditorChange _ => true
  | ClickGenerate => button_enabled (render (view x))
  | Settle _ => negb (Nat.eqb (inflight x) 0)
  end.

Definition step (e : Event) (x : Session) : Session :=
  match e with
  | SelectLanguage v =>
      mkSession (state_of (handleLanguageChange v (view x))) (inflight x) (sent x)
  | SelectVizType v =>
      mkSession (state_of (handleVizTypeChange v (view x))) (inflight x) (sent x)
  | EditorChange v =>
      mkSession (handleCodeChange v (view x)) (inflight x) (sent x)
  | ClickGenerate =>
      mkSession (generateVisualization_begin (view x)) (S (inflight x))
                (sent x ++ [generateVisualization_request (view x)])
  | Settle r =>
      mkSession (generateVisualization_settle r (view x)) (pred (inflight x)) (sent x)
  end.

Inductive reachable : Session -> Prop :=
| reach_start : reachable start
| reach_step x e : reachable x -> offered x e = true -> reachable (step e x).

(** Running a list of events, refusing one that is not offered. *)
Fixpoint run (es : list Event) (x : Session) : option Session :=
  match es with
  | [] => Some x
  | e :: rest => if offered x e then run rest (step e x) else None
  end.

(** The enumerations of the wire contract. *)
Definition languages : list string := ["python"; "r"].
Definition vizTypes : list string := ["static"; "interactive"; "3d"].

(** A request body that fits the wire contract: exactly the members
    [code], [language] and [viz_type], the latter two within their
    enumerations. *)
Definition wire_body (b : list (string * string)) : Prop :=
  exists c l v,
    b = [("code", c); ("language", l); ("viz_type", v)] /\
    In l languages /\ In v vizTypes.

(** What holds of the component state throughout a session: both keys are
    within their enumerations and the code is a string. *)
Definition well_typed (s : State) : Prop :=
  In (language s) languages /\ In (vizType s) vizTypes /\
  exists c, code s = Some c.

(** What holds of a session besides: at most one request is in flight,
    exactly while [loading] is set, and [error] and [visualization] are
    both empty until it settles. *)
Definition settled_or_waiting (x : Session) : Prop :=
  (loading (view x) = false /\ inflight x = 0 /\
   (error (view x) = EmptyString \/ visualization (view x) = EmptyString)) \/
  (loading (view x) = true /\ inflight x = 1 /\
   error (view x) = EmptyString /\ visualization (view x) = EmptyString).

(** ** Observations on sessions and trees *)

(** The clicks on the button among a list of events. *)
Fixpoint clicks (es : list Event) : nat :=
  match es with
  | [] => 0
  | ClickGenerate :: rest => S (clicks rest)
  | _ :: rest => clicks rest
  end.

(** The settled requests among a list of events. *)
Fixpoint settles (es : list Event) : nat :=
  match es with
  | [] => 0
  | Settle _ :: rest => S (settles rest)
  | _ :: rest => settles rest
  end.

(** Whether an event is the editor reporting a string. *)
Definition is_edit (e : Event) : bool :=
  match e with
  | EditorChange (Some _) => true
  | _ => false
  end.

(** The editor holds the sample of the current selection. *)
Definition shows_sample (s : State) : Prop :=
  code s = as_code (sample (language s) (vizType s)).

(** The result cells are either both empty or tagged [image] or [html]. *)
Definition result_typed (s : State) : Prop :=
  (visualizationType s = EmptyString /\ visualization s = EmptyString) \/
  visualizationType s = "image" \/
  visualizationType s = "html".

(** ** The execution core *)

(** The service behind [POST /generate-visualization] is not part of the
    sources at hand; the definitions of this module follow the design
    document (sections 3, 4, 6 and 7). *)
Module Core.

(** Modelled from the spec: the request record of section 3 (the server's
    request type is missing).  The fields arrive as text and are validated
    by the dispatcher. *)
Record ExecutionRequest := mkRequest {
  code : string;
  language : string;
  vizType : string
}.

(** Modelled from the spec: the artifact kinds of [ExecutionResult]
    (section 3). *)
Inductive ArtifactKind := image | html.

(** Modelled from the spec: the error taxonomy of section 7. *)
Inductive FailureKind :=
| ValidationError
| ExecutionTimeout
| ResourceExceeded
| RuntimeError
| NoOutput
| OutputTooLarge
| InternalError.

(** Modelled from the spec: the tagged variant [ExecutionResult] of
    section 3. *)
Inductive ExecutionResult :=
| Artifact (kind : ArtifactKind) (content : string)
| Failure (kind : FailureKind) (message : string).

Definition is_artifact (r : ExecutionResult) : bool :=
  match r with
  | Artifact _ _ => true
  | Failure _ _ => false
  end.

Definition is_failure (r : ExecutionResult) : bool :=
  match r with
  | Artifact _ _ => false
  | Failure _ _ => true
  end.

(** Modelled from the spec: the failure texts the document leaves to the
    implementation (it fixes only [Unsupported language] and
    [No visualization was generated]). *)
Inductive Notice :=
| BadVizType
| EmptyCode
| OversizedCode
| TimedOut
| MemoryExceeded
| AtCapacity
| ArtifactTooLarge
| Internal.

(** Modelled from the spec: the configuration surface of section 6, with
    the parts of the normalizer the document names but does not define
    (the error-trace recogniser, the base64 encoder, the diagnostic bound
    and the open failure texts). *)
Record Settings := mkSettings {
  max_code_length : nat;
  capacity : nat;
  max_artifact_size : nat;
  diagnostic_bound : nat;
  error_trace : string -> bool;
  base64 : list Byte.byte -> string;
  notice : Notice -> string
}.

(** Modelled from the spec: the artifact channel of section 4.2, holding
    the sentinel, image bytes or a document once the epilogue has run. *)
Inductive Channel :=
| Sentinel
| ImageBytes (bytes : list Byte.byte)
| Document (text : string).

(** Modelled from the spec: what becomes of a spawned worker (sections 4.3
    and 5).  It exits by itself, reporting its three channels, or is
    forcibly terminated with whatever it had written so far.  [late] says
    that the request deadline fired during normalization. *)
Inductive Fate :=
| Finishes (status : Z) (artifact : Channel) (diagnostics : string) (late : bool)
| ExceedsTime (partial : option Channel)
| ExceedsMemory (partial : option Channel)
| DeadlineFires (partial : option Channel).

Definition killed (f : Fate) : bool :=
  match f with
  | Finishes _ _ _ _ => false
  | _ => true
  end.

(** Modelled from the spec: the environment of one request.  The deadline
    can fire before a worker exists, the spawn can fail, or a worker with
    the given process identifier runs to its fate. *)
Inductive World :=
| LateBeforeSpawn
| SpawnFails
| Spawns (pid : nat) (fate : Fate).

(** Modelled from the spec: the observable actions of the dispatcher,
    governor and worker while one request is served. *)
Inductive Action :=
| SlotTaken
| Spawned (pid : nat)
| Killed (pid : nat)
| Reaped (pid : nat)
| ScratchRemoved (pid : nat)
| SlotReleased
| Returned (r : ExecutionResult).

(** Modelled from the spec: the validation of section 4.1; [None] accepts
    the request. *)
Definition validate (cfg : Settings) (req : ExecutionRequest) : option string :=
  if negb (mem (language req) ["python"; "r"]) then
    Some "Unsupported language"
  else if negb (mem (vizType req) ["static"; "interactive"; "3d"]) then
    Some (notice cfg BadVizType)
  else if Nat.eqb (String.length (code req)) 0 then
    Some (notice cfg EmptyCode)
  else if Nat.ltb (max_code_length cfg) (String.length (code req)) then
    Some (notice cfg OversizedCode)
  else None.

(** Modelled from the spec: the normalizer of section 4.5, applied to the
    raw results of a worker that exited by itself. *)
Definition normalize (cfg : Settings) (status : Z) (artifact : Channel)
    (diagnostics : string) : ExecutionResult :=
  if negb (Z.eqb status 0) || error_trace cfg diagnostics then
    Failure RuntimeError (substring 0 (diagnostic_bound cfg) diagnostics)
  else
    match artifact with
    | Sentinel => Failure NoOutput "No visualization was generated"
    | ImageBytes bytes =>
        if Nat.ltb (max_artifact_size cfg) (List.length bytes) then
          Failure OutputTooLarge (notice cfg ArtifactTooLarge)
        else Artifact image (base64 cfg bytes)
    | Document text =>
        if Nat.ltb (max_artifact_size cfg) (String.length text) then
          Failure OutputTooLarge (notice cfg ArtifactTooLarge)
        else Artifact html text
    end.

(** Modelled from the spec: the result for a worker's fate.  A forcibly
    terminated worker has its partial output discarded (section 4.3); a
    deadline that fires at any stage gives [ExecutionTimeout]
    (section 4.1). *)
Definition conclude (cfg : Settings) (f : Fate) : ExecutionResult :=
  match f with
  | Finishes status artifact diagnostics late =>
      if late then Failure ExecutionTimeout (notice cfg TimedOut)
      else normalize cfg status artifact diagnostics
  | ExceedsTime _ => Failure ExecutionTimeout (notice cfg TimedOut)
  | ExceedsMemory _ => Failure ResourceExceeded (notice cfg MemoryExceeded)
  | DeadlineFires _ => Failure ExecutionTimeout (notice cfg TimedOut)
  end.

(** Modelled from the spec: the dispatcher of section 4.1 driving the
    governor (4.4, with the reject policy) and the worker (4.3) for one
    request, as the sequence of actions it performs.  [live] is the
    governor's count of admitted workers when the request arrives. *)
Definition dispatch (cfg : Settings) (live : nat) (req : ExecutionRequest)
    (w : World) : list Action :=
  match validate cfg req with
  | Some message => [Returned (Failure ValidationError message)]
  | None =>
      match w with
      | LateBeforeSpawn =>
          [Returned (Failure ExecutionTimeout (notice cfg TimedOut))]
      | SpawnFails =>
          if Nat.ltb live (capacity cfg) then
            [SlotTaken; SlotReleased;
             Returned (Failure InternalError (notice cfg Internal))]
          else [Returned (Failure ResourceExceeded (notice cfg AtCapacity))]
      | Spawns pid fate =>
          if Nat.ltb live (capacity cfg) then
            [SlotTaken; Spawned pid] ++
            (if killed fate then [Killed pid] else []) ++
            [Reaped pid; ScratchRemoved pid; SlotReleased;
             Returned (conclude cfg fate)]
          else [Returned (Failure ResourceExceeded (notice cfg AtCapacity))]
      end
  end.

(** The results a sequence of actions returns. *)
Fixpoint results (t : list Action) : list ExecutionResult :=
  match t with
  | [] => []
  | Returned r :: rest => r :: results rest
  | _ :: rest => results rest
  end.

(** The processes a sequence of actions creates. *)
Fixpoint spawned (t : list Action) : list nat :=
  match t with
  | [] => []
  | Spawned pid :: rest => pid :: spawned rest
  | _ :: rest => spawned rest
  end.

Definition remove_pid (pid : nat) (l : list nat) : list nat :=
  filter (fun p => negb (Nat.eqb p pid)) l.

(** The processes still alive after a sequence of actions, starting from
    the ones in [alive]. *)
Fixpoint running (t : list Action) (alive : list nat) : list nat :=
  match t with
  | [] => alive
  | Spawned pid :: rest => running rest (pid :: alive)
  | Reaped pid :: rest => running rest (remove_pid pid alive)
  | _ :: rest => running rest alive
  end.

(** The scratch directories still present after a sequence of actions; a
    worker's directory comes with its process. *)
Fixpoint scratch (t : list Action) (present : list nat) : list nat :=
  match t with
  | [] => present
  | Spawned pid :: rest => scratch rest (pid :: present)
  | ScratchRemoved pid :: rest => scratch rest (remove_pid pid present)
  | _ :: rest => scratch rest present
  end.

(** The governor's count after a sequence of actions. *)
Fixpoint occupancy (t : list Action) (live : nat) : nat :=
  match t with
  | [] => live
  | SlotTaken :: rest => occupancy rest (S live)
  | SlotReleased :: rest => occupancy rest (pred live)
  | _ :: rest => occupancy rest live
  end.

(** Modelled from the spec: the two response shapes of the wire contract
    (section 6); a failure travels with some non-2xx status. *)
Inductive HttpReply :=
| Reply2xx (type_ content : string)
| ReplyNon2xx (detail : string).

Definition tag (k : ArtifactKind) : string :=
  match k with
  | image => "image"
  | html => "html"
  end.

(** Modelled from the spec: the propagation policy of section 7. *)
Definition respond (r : ExecutionResult) : HttpReply :=
  match r with
  | Artifact k content => Reply2xx (tag k) content
  | Failure _ message => ReplyNon2xx message
  end.

End Core.

(** What the client's awaited [axios.post] settles to for a reply of the
    core sent with status [st] on its failure path. *)
Definition receive (st : Z) (reply : Core.HttpReply) : AxiosResult :=
  match reply with
  | Core.Reply2xx t c => Fulfilled (mkResponse t c)
  | Core.ReplyNon2xx d => failure_response st d
  end.

(** * Properties of the editor client *)

Lemma mem_In (v : string) (l : list string) : mem v l = true <-> In v l.
Proof.
  unfold mem. rewrite existsb_exists. split.
  - intros [y [Hy He]]. apply String.eqb_eq in He. now subst.
  - intros H. exists v. split; [assumption | apply String.eqb_refl].
Qed.

Lemma truthy_nonempty (s : string) : truthy s = true <-> s <> EmptyString.
Proof.
  destruct s; simpl; split; intros H; try discriminate; try reflexivity.
  now exfalso.
Qed.

(** The menus of any rendered tree are the two enumerations. *)
Lemma menu_language (s : State) : menu "Language" (render s) = languages.
Proof. reflexivity. Qed.

Lemma menu_vizType (s : State) : menu "Visualization Type" (render s) = vizTypes.
Proof. reflexivity. Qed.

Lemma button_enabled_render (s : State) : button_enabled (render s) = negb (loading s).
Proof. reflexivity. Qed.

(** Every pair of enumerated keys has a sample. *)
Lemma sample_found (l v : string) :
  In l languages -> In v vizTypes -> exists text, sample l v = Found text.
Proof.
  unfold languages, vizTypes. simpl.
  intros [<- | [<- | []]] [<- | [<- | [<- | []]]]; eexists; reflexivity.
Qed.

(** A language of the menu never makes the table read throw. *)
Lemma sample_language_no_throw (l v : string) :
  In l languages -> sample l v <> TypeError.
Proof.
  unfold languages. simpl.
  intros [<- | [<- | []]]; unfold sample; simpl;
    repeat match goal with
           | |- context [if ?b then _ else _] => destruct b
           end;
    discriminate.
Qed.

Lemma well_typed_initial : well_typed initial.
Proof.
  unfold well_typed, languages, vizTypes. simpl.
  repeat split; auto. eexists; reflexivity.
Qed.

Lemma handleLanguageChange_typed (v : string) (s : State) :
  In v languages -> well_typed s ->
  well_typed (state_of (handleLanguageChange v s)).
Proof.
  intros Hv (Hl & Ht & Hc).
  destruct (sample_found v (vizType s) Hv Ht) as [text E].
  unfold handleLanguageChange. rewrite E. simpl.
  unfold well_typed. simpl. repeat split; auto. now exists text.
Qed.

Lemma handleVizTypeChange_typed (v : string) (s : State) :
  In v vizTypes -> well_typed s ->
  well_typed (state_of (handleVizTypeChange v s)).
Proof.
  intros Hv (Hl & Ht & Hc).
  destruct (sample_found (language s) v Hl Hv) as [text E].
  unfold handleVizTypeChange. rewrite E. simpl.
  unfold well_typed. simpl. repeat split; auto. now exists text.
Qed.

Lemma handleCodeChange_typed (v : option string) (s : State) :
  well_typed s -> well_typed (handleCodeChange v s).
Proof.
  intros (Hl & Ht & Hc). destruct v as [text |]; simpl.
  - unfold well_typed. simpl. repeat split; auto. now exists text.
  - now repeat split.
Qed.

Lemma begin_typed (s : State) :
  well_typed s -> well_typed (generateVisualization_begin s).
Proof. intros H. exact H. Qed.

Lemma settle_typed (r : AxiosResult) (s : State) :
  well_typed s -> well_typed (generateVisualization_settle r s).
Proof.
  intros H. unfold generateVisualization_settle.
  destruct r as [d | err]; simpl.
  - unfold on_response.
    destruct (str_eq (type_ d) "image"); [exact H |].
    destruct (str_eq (type_ d) "html"); exact H.
  - exact H.
Qed.

Lemma request_wire (s : State) :
  well_typed s -> wire_body (body (generateVisualization_request s)).
Proof.
  intros (Hl & Ht & c & Hc). exists c, (language s), (vizType s).
  unfold generateVisualization_request. simpl. rewrite Hc. simpl. auto.
Qed.

(** The invariant of a session: the state is well typed and so was every
    request sent. *)
Lemma reachable_invariant (x : Session) :
  reachable x ->
  well_typed (view x) /\ Forall (fun q => wire_body (body q)) (sent x).
Proof.
  induction 1 as [| x e Hx [IHs IHq] Hoff].
  - split; [exact well_typed_initial | constructor].
  - destruct e as [v | v | v | | r]; cbn [offered] in Hoff; cbn [step view sent].
    + split; [| exact IHq].
      apply handleLanguageChange_typed; [| exact IHs].
      rewrite menu_language in Hoff. now apply mem_In.
    + split; [| exact IHq].
      apply handleVizTypeChange_typed; [| exact IHs].
      rewrite menu_vizType in Hoff. now apply mem_In.
    + split; [now apply handleCodeChange_typed | exact IHq].
    + split; [now apply begin_typed |].
      apply Forall_app. split; [exact IHq |].
      constructor; [now apply request_wire | constructor].
    + split; [now apply settle_typed | exact IHq].
Qed.

(** The handlers store whatever string the event carries: only the menus
    keep the state within the enumerations. *)
Lemma unchecked_cast_stores_any_string :
  handleVizTypeChange "4d" initial =
    Normal (setCode None (setVizType "4d" initial)).
Proof. reflexivity. Qed.

Lemma settle_clears_loading (r : AxiosResult) (s : State) :
  loading (generateVisualization_settle r s) = false.
Proof. reflexivity. Qed.

Lemma settle_exclusive (r : AxiosResult) (s : State) :
  error s = EmptyString -> visualization s = EmptyString ->
  error (generateVisualization_settle r s) = EmptyString \/
  visualization (generateVisualization_settle r s) = EmptyString.
Proof.
  intros He Hv. unfold generateVisualization_settle.
  destruct r as [d | err]; simpl.
  - unfold on_response.
    destruct (str_eq (type_ d) "image"); simpl; [now left |].
    destruct (str_eq (type_ d) "html"); simpl; [now left | now right].
  - now right.
Qed.

(** Throughout a session at most one request is in flight, and at most
    one of [error] and [visualization] is non-empty. *)
Lemma session_settled_or_waiting (x : Session) :
  reachable x -> settled_or_waiting x.
Proof.
  induction 1 as [| x e Hx IH Hoff].
  - left. repeat split. now left.
  - destruct e as [v | v | v | | r]; cbn [offered] in Hoff.
    + unfold settled_or_waiting, step, handleLanguageChange. cbn [view inflight].
      destruct (sample v (vizType (view x))); exact IH.
    + unfold settled_or_waiting, step, handleVizTypeChange. cbn [view inflight].
      destruct (sample (language (view x)) v); exact IH.
    + unfold settled_or_waiting, step, handleCodeChange. cbn [view inflight].
      destruct v; exact IH.
    + rewrite button_enabled_render in Hoff.
      destruct IH as [(Hl & Hn & _) | (Hl & _)].
      * right. cbn [step view inflight]. rewrite Hn. repeat split.
      * rewrite Hl in Hoff. discriminate.
    + destruct IH as [(_ & Hn & _) | (_ & Hn & He & Hv)].
      * rewrite Hn in Hoff. discriminate.
      * left. cbn [step view inflight]. rewrite Hn.
        split; [apply settle_clears_loading |]. split; [reflexivity |].
        now apply settle_exclusive.
Qed.

Lemma session_error_visualization_exclusive (x : Session) :
  reachable x ->
  error (view x) = EmptyString \/ visualization (view x) = EmptyString.
Proof.
  intros H. destruct (session_settled_or_waiting x H) as [(_ & _ & E) | (_ & _ & E & _)].
  - exact E.
  - now left.
Qed.

Lemma run_reachable (es : list Event) (x y : Session) :
  reachable x -> run es x = Some y -> reachable y.
Proof.
  revert x. induction es as [| e rest IH]; simpl; intros x Hx Hrun.
  - injection Hrun as <-. exact Hx.
  - destruct (offered x e) eqn:Hoff; [| discriminate].
    apply (IH (step e x)); [now apply reach_step | exact Hrun].
Qed.

Lemma wire_body_fields (b : list (string * string)) :
  wire_body b ->
  exists l v,
    prop "language" b = Some l /\ In l languages /\
    prop "viz_type" b = Some v /\ In v vizTypes.
Proof.
  intros (c & l & v & -> & Hl & Hv). exists l, v. simpl. auto.
Qed.

(** ** The request *)

(** C1: every call of [generateVisualization] made in a session issues
    exactly one request, a POST to the path [/generate-visualization] of the
    configured origin, whose JSON body has exactly the members [code] (the
    editor text of the current render), [language] and [viz_type], the
    latter two within the enumerations of the wire contract; a click on the
    button appends exactly this request to the ones sent. *)
Theorem generateVisualization_posts_once (x : Session) (r : AxiosResult)
    (H : reachable x) :
  exists c,
    code (view x) = Some c /\
    snd (generateVisualization r (view x)) =
      [ mkRequest "POST" ("http://localhost:8000" ++ "/generate-visualization")
          [ ("code", c);
            ("language", language (view x));
            ("viz_type", vizType (view x)) ] ] /\
    In (language (view x)) ["python"; "r"] /\
    In (vizType (view x)) ["static"; "interactive"; "3d"] /\
    sent (step ClickGenerate x) =
      (sent x ++ snd (generateVisualization r (view x)))%list.
Proof.
  destruct (reachable_invariant x H) as [(Hl & Ht & c & Hc) _].
  exists c. repeat split; try assumption.
  unfold generateVisualization, generateVisualization_request. simpl.
  rewrite Hc. reflexivity.
Qed.

Lemma generateVisualization_posts_once_witness :
  reachable start /\
  exists c,
    code (view start) = Some c /\
    snd (generateVisualization (Fulfilled (mkResponse "image" "iVBORw0KGgo=")) (view start)) =
      [ mkRequest "POST" ("http://localhost:8000" ++ "/generate-visualization")
          [ ("code", c); ("language", "python"); ("viz_type", "static") ] ] /\
    In (language (view start)) ["python"; "r"] /\
    In (vizType (view start)) ["static"; "interactive"; "3d"] /\
    sent (step ClickGenerate start) =
      (sent start ++
       snd (generateVisualization (Fulfilled (mkResponse "image" "iVBORw0KGgo=")) (view start)))%list.
Proof.
  split; [exact reach_start |].
  exact (generateVisualization_posts_once start
           (Fulfilled (mkResponse "image" "iVBORw0KGgo=")) reach_start).
Defined.

(** C3: the state starts at (python, static), and in every session driven
    through the rendered menus the [language] state stays within
    python, r and the [vizType] state within static, interactive, 3d;
    hence every request sent carries a [language] and a [viz_type] member
    from these enumerations. *)
Theorem request_fields_enumerated (x : Session) (H : reachable x) :
  (language initial, vizType initial) = ("python", "static") /\
  In (language (view x)) ["python"; "r"] /\
  In (vizType (view x)) ["static"; "interactive"; "3d"] /\
  Forall (fun q =>
            exists l v,
              prop "language" (body q) = Some l /\ In l ["python"; "r"] /\
              prop "viz_type" (body q) = Some v /\
              In v ["static"; "interactive"; "3d"])
         (sent x).
Proof.
  destruct (reachable_invariant x H) as [(Hl & Ht & _) Hq].
  repeat split; try assumption.
  eapply Forall_impl; [| exact Hq].
  intros q Hw. exact (wire_body_fields _ Hw).
Qed.

Lemma request_fields_enumerated_witness :
  let x := step ClickGenerate
             (step (SelectVizType "3d") (step (SelectLanguage "r") start)) in
  reachable x /\
  ((language initial, vizType initial) = ("python", "static") /\
   In (language (view x)) ["python"; "r"] /\
   In (vizType (view x)) ["static"; "interactive"; "3d"] /\
   Forall (fun q =>
             exists l v,
               prop "language" (body q) = Some l /\ In l ["python"; "r"] /\
               prop "viz_type" (body q) = Some v /\
               In v ["static"; "interactive"; "3d"])
          (sent x)).
Proof.
  intros x.
  assert (Hx : reachable x).
  { apply (run_reachable [SelectLanguage "r"; SelectVizType "3d"; ClickGenerate] start);
      [exact reach_start | reflexivity]. }
  split; [exact Hx | exact (request_fields_enumerated x Hx)].
Defined.

(** ** Rendering of success responses *)

(** C2, as stated, fails: a success response of type [image] whose content
    is the empty string leaves nothing to show, because the tree guards the
    visualization with [visualization && ...]. *)
Lemma empty_image_not_rendered :
  let d := mkResponse "image" EmptyString in
  let s' := fst (generateVisualization (Fulfilled d) initial) in
  type_ d = "image" /\
  ~ In (Img ("data:image/png;base64," ++ content d) "Visualization") (render s') /\
  filter is_visual (render s') = [].
Proof.
  cbv zeta. split; [reflexivity |]. split; [| reflexivity].
  vm_compute. intros H.
  repeat (destruct H as [H | H]; [discriminate H |]). exact H.
Qed.

(** C2, amended: for every success response whose content is not empty,
    type [image] renders, after the controls, exactly one [<img>] whose
    [src] is [data:image/png;base64,] followed by the content, and type
    [html] exactly one inline frame with the content as [srcDoc] and a
    [sandbox] attribute; and for every success response whatsoever, an
    image or frame in the tree is one of these two. *)
Theorem success_response_rendering (d : VisualizationResponse) (s : State)
    (Hc : content d <> EmptyString) :
  let s' := fst (generateVisualization (Fulfilled d) s) in
  (type_ d = "image" ->
   render s' =
     (controls s' ++
      [Img ("data:image/png;base64," ++ content d) "Visualization"])%list) /\
  (type_ d = "html" ->
   render s' =
     (controls s' ++
      [Iframe (content d) "Interactive Visualization"
              "allow-scripts allow-same-origin allow-popups"])%list) /\
  (forall (d' : VisualizationResponse) (t : State) (e : Element),
     In e (render (fst (generateVisualization (Fulfilled d') t))) ->
     is_visual e = true ->
     (type_ d' = "image" /\
      e = Img ("data:image/png;base64," ++ content d') "Visualization") \/
     (type_ d' = "html" /\
      e = Iframe (content d') "Interactive Visualization"
                 "allow-scripts allow-same-origin allow-popups")).
Proof.
  apply truthy_nonempty in Hc.
  cbv zeta. split; [| split].
  - intros Ht. unfold generateVisualization, generateVisualization_settle,
      on_response, str_eq. simpl. rewrite Ht. simpl.
    unfold render, error_view, visualization_view. simpl. now rewrite Hc.
  - intros Ht. unfold generateVisualization, generateVisualization_settle,
      on_response, str_eq. simpl. rewrite Ht. simpl.
    unfold render, error_view, visualization_view. simpl. now rewrite Hc.
  - intros d' t e Hin Hv.
    unfold generateVisualization, generateVisualization_settle,
      on_response, str_eq in Hin. simpl in Hin.
    destruct (String.eqb (type_ d') "image") eqn:Ei;
      [| destruct (String.eqb (type_ d') "html") eqn:Eh].
    + apply String.eqb_eq in Ei. left. split; [exact Ei |].
      unfold render, error_view, visualization_view in Hin. simpl in Hin.
      destruct (truthy (content d')); simpl in Hin;
        repeat (destruct Hin as [Hin | Hin];
                [subst e; try discriminate Hv; try reflexivity |]);
        contradiction.
    + apply String.eqb_eq in Eh. right. split; [exact Eh |].
      unfold render, error_view, visualization_view in Hin. simpl in Hin.
      destruct (truthy (content d')); simpl in Hin;
        repeat (destruct Hin as [Hin | Hin];
                [subst e; try discriminate Hv; try reflexivity |]);
        contradiction.
    + exfalso.
      unfold render, error_view, visualization_view in Hin. simpl in Hin.
      repeat (destruct Hin as [Hin | Hin];
              [subst e; discriminate Hv |]).
      contradiction.
Qed.

Lemma success_response_rendering_witness :
  let d := mkResponse "html" "<!DOCTYPE html><html></html>" in
  content d <> EmptyString /\
  render (fst (generateVisualization (Fulfilled d) initial)) =
    (controls (fst (generateVisualization (Fulfilled d) initial)) ++
     [Iframe "<!DOCTYPE html><html></html>" "Interactive Visualization"
             "allow-scripts allow-same-origin allow-popups"])%list.
Proof.
  intros d.
  assert (Hc : content d <> EmptyString) by (simpl; discriminate).
  split; [exact Hc |].
  exact (proj1 (proj2 (success_response_rendering d initial Hc)) eq_refl).
Defined.

(** ** Failure responses *)

(** C4, as stated, fails: for a failure response whose [detail] is the
    empty string the client shows the fallback text, not the detail,
    because [||] treats the empty string as absent. *)
Lemma empty_detail_replaced :
  let s' := fst (generateVisualization (failure_response 500 EmptyString) initial) in
  validateStatus 500 = false /\
  error s' <> EmptyString /\
  render s' = (controls s' ++ [ErrorMessage "An error occurred"])%list.
Proof.
  cbv zeta. split; [reflexivity |]. split; [| reflexivity].
  vm_compute. discriminate.
Qed.

(** C4, amended: for every failure response (status outside 200..299)
    whose JSON body carries a non-empty [detail] string, the client stores
    that string as its error and shows it, and nothing else, after the
    controls. *)
Theorem failure_detail_displayed (st : Z) (d : string) (s : State)
    (Hst : validateStatus st = false) (Hd : d <> EmptyString) :
  let s' := fst (generateVisualization (failure_response st d) s) in
  error s' = d /\
  render s' = (controls s' ++ [ErrorMessage d])%list.
Proof.
  apply truthy_nonempty in Hd. cbv zeta.
  unfold generateVisualization, failure_response, generateVisualization_settle,
    on_error, detail_of, or_else. simpl. rewrite Hd.
  split; [reflexivity |].
  unfold render, error_view, visualization_view. simpl. now rewrite Hd.
Qed.

Lemma failure_detail_displayed_witness :
  validateStatus 400 = false /\
  "Unsupported language" <> EmptyString /\
  error (fst (generateVisualization
                (failure_response 400 "Unsupported language") initial)) =
    "Unsupported language".
Proof.
  split; [reflexivity |]. split; [discriminate |].
  exact (proj1 (failure_detail_displayed 400 "Unsupported language" initial
                  eq_refl ltac:(discriminate))).
Defined.

(** C10: if the request throws and the caught value carries no
    [response.data.detail] string (no response, no body, or no detail), the
    client shows exactly the text [An error occurred]; and whatever the
    outcome of a call, the loading flag ends up false and the rendered
    button is enabled again. *)
Theorem fallback_message_and_loading_reset (err : AxiosError) (s : State)
    (H : detail_of err = None) :
  let s' := fst (generateVisualization (Rejected err) s) in
  error s' = "An error occurred" /\
  render s' = (controls s' ++ [ErrorMessage "An error occurred"])%list /\
  (forall (r : AxiosResult) (t : State),
     loading (fst (generateVisualization r t)) = false /\
     button_enabled (render (fst (generateVisualization r t))) = true).
Proof.
  cbv zeta. split; [| split].
  - unfold generateVisualization, generateVisualization_settle, on_error.
    simpl. now rewrite H.
  - unfold generateVisualization, generateVisualization_settle, on_error.
    simpl. rewrite H. reflexivity.
  - intros r t. rewrite button_enabled_render.
    assert (E : loading (fst (generateVisualization r t)) = false).
    { unfold generateVisualization, generateVisualization_settle. reflexivity. }
    rewrite E. split; reflexivity.
Qed.

Lemma fallback_message_and_loading_reset_witness :
  detail_of (mkAxiosError None) = None /\
  error (fst (generateVisualization (Rejected (mkAxiosError None)) initial)) =
    "An error occurred".
Proof.
  split; [reflexivity |].
  exact (proj1 (fallback_message_and_loading_reset (mkAxiosError None) initial
                  eq_refl)).
Defined.

(** The three ways of carrying no detail. *)
Lemma detail_absent_cases (err : AxiosError) :
  detail_of err = None <->
  response err = None \/
  (exists r, response err = Some r /\ data r = None) \/
  (exists r b, response err = Some r /\ data r = Some b /\ detail b = None).
Proof.
  unfold detail_of. destruct (response err) as [r |].
  - destruct (data r) as [b |] eqn:Eb.
    + split.
      * intros Hd. right. right. exists r, b. auto.
      * intros [Hn | [(r' & Hr & Hd) | (r' & b' & Hr & Hb & Hd)]];
          try discriminate.
        -- injection Hr as <-. rewrite Eb in Hd. discriminate.
        -- injection Hr as <-. rewrite Eb in Hb. injection Hb as <-. exact Hd.
    + split; [| reflexivity].
      intros _. right. left. exists r. auto.
  - split; [left | ]; reflexivity.
Qed.

(** ** Error and visualization *)

(** C8: the handler first clears [error], [visualization] and
    [visualizationType]; after a completed call at most one of [error] and
    [visualization] is non-empty, and each outcome sets only one of them:
    an image or html response leaves [error] empty, an unrecognised type
    or a thrown error leaves [visualization] empty. *)
Theorem error_visualization_exclusive (r : AxiosResult) (s : State) :
  let s0 := generateVisualization_begin s in
  let s' := fst (generateVisualization r s) in
  (error s0 = EmptyString /\ visualization s0 = EmptyString /\
   visualizationType s0 = EmptyString) /\
  (error s' = EmptyString \/ visualization s' = EmptyString) /\
  (match r with
   | Fulfilled d =>
       if str_eq (type_ d) "image" || str_eq (type_ d) "html"
       then error s' = EmptyString /\ visualization s' = content d
       else visualization s' = EmptyString /\
            error s' = "No visualization was generated"
   | Rejected err =>
       visualization s' = EmptyString /\
       error s' = or_else (detail_of err) "An error occurred"
   end).
Proof.
  cbv zeta. split; [repeat split |].
  unfold generateVisualization, generateVisualization_settle. simpl.
  destruct r as [d | err]; simpl.
  - unfold on_response.
    destruct (str_eq (type_ d) "image"); simpl; [auto |].
    destruct (str_eq (type_ d) "html"); simpl; auto.
  - auto.
Qed.

(** ** Sample code on a menu change *)

(** C9: in a session, choosing a language in the menu stores the chosen
    language and replaces the editor code by
    [SAMPLE_CODES[newLanguage][vizType]], and choosing a visualization type
    stores it and replaces the code by [SAMPLE_CODES[language][newType]];
    what the user had typed before is gone. *)
Theorem menu_change_replaces_code (x : Session) (typed : string)
    (newLanguage newType : string)
    (H : reachable x)
    (Hl : offered x (SelectLanguage newLanguage) = true)
    (Ht : offered x (SelectVizType newType) = true) :
  let y := step (EditorChange (Some typed)) x in
  code (view y) = Some typed /\
  (exists text,
     sample newLanguage (vizType (view x)) = Found text /\
     handleLanguageChange newLanguage (view y) =
       Normal (setCode (Some text) (setLanguage newLanguage (view y))) /\
     code (view (step (SelectLanguage newLanguage) y)) = Some text /\
     language (view (step (SelectLanguage newLanguage) y)) = newLanguage) /\
  (exists text,
     sample (language (view x)) newType = Found text /\
     handleVizTypeChange newType (view y) =
       Normal (setCode (Some text) (setVizType newType (view y))) /\
     code (view (step (SelectVizType newType) y)) = Some text /\
     vizType (view (step (SelectVizType newType) y)) = newType).
Proof.
  destruct (reachable_invariant x H) as [(Hlang & Htype & _) _].
  cbn [offered] in Hl, Ht.
  rewrite menu_language in Hl. rewrite menu_vizType in Ht.
  apply mem_In in Hl. apply mem_In in Ht.
  cbv zeta. split; [reflexivity |]. split.
  - destruct (sample_found newLanguage (vizType (view x)) Hl Htype) as [text E].
    exists text. split; [exact E |].
    cbn [step view handleCodeChange].
    unfold handleLanguageChange. cbn [vizType setCode setLanguage].
    rewrite E. repeat split.
  - destruct (sample_found (language (view x)) newType Hlang Ht) as [text E].
    exists text. split; [exact E |].
    cbn [step view handleCodeChange].
    unfold handleVizTypeChange. cbn [language setCode setVizType].
    rewrite E. repeat split.
Qed.

Lemma menu_change_replaces_code_witness :
  reachable start /\
  offered start (SelectLanguage "r") = true /\
  offered start (SelectVizType "interactive") = true /\
  code (view (step (SelectLanguage "r")
                (step (EditorChange (Some "print(1)")) start))) =
    Some Samples.r_static /\
  code (view (step (SelectVizType "interactive")
                (step (EditorChange (Some "print(1)")) start))) =
    Some Samples.python_interactive.
Proof.
  split; [exact reach_start |]. split; [reflexivity |]. split; [reflexivity |].
  pose proof (menu_change_replaces_code start "print(1)" "r" "interactive"
                reach_start eq_refl eq_refl) as (_ & (t1 & E1 & _ & C1 & _) & (t2 & E2 & _ & C2 & _)).
  split.
  - rewrite C1. injection E1 as <-. reflexivity.
  - rewrite C2. injection E2 as <-. reflexivity.
Defined.

(** * Properties of the execution core *)

Lemma remove_pid_self (pid : nat) : Core.remove_pid pid [pid] = [].
Proof. unfold Core.remove_pid. simpl. now rewrite Nat.eqb_refl. Qed.

(** A result is an artifact or a failure, and not both. *)
Lemma result_variant (r : Core.ExecutionResult) :
  ((exists k c, r = Core.Artifact k c) \/ (exists k m, r = Core.Failure k m)) /\
  ~ ((exists k c, r = Core.Artifact k c) /\ (exists k m, r = Core.Failure k m)).
Proof.
  split.
  - destruct r as [k c | k m]; [left | right]; eauto.
  - intros [(k & c & E1) (k' & m & E2)]. congruence.
Qed.

(** A forcibly terminated worker is concluded with a failure, whatever it
    had written. *)
Lemma conclude_killed (cfg : Core.Settings) (f : Core.Fate) :
  Core.killed f = true ->
  exists k m, Core.conclude cfg f = Core.Failure k m /\
              (k = Core.ExecutionTimeout \/ k = Core.ResourceExceeded).
Proof.
  destruct f; simpl; intros H; try discriminate; eauto.
Qed.

(** C6: serving a request performs a sequence of actions that ends in the
    return of one result and returns nothing before; the result is an
    artifact or a failure and not both; at most one process is spawned,
    and when the result is returned no spawned process is alive and no
    scratch directory is left.  The governor's count is back where it
    was. *)
Theorem one_result_one_process (cfg : Core.Settings) (live : nat)
    (req : Core.ExecutionRequest) (w : Core.World) :
  exists pre r,
    Core.dispatch cfg live req w = (pre ++ [Core.Returned r])%list /\
    Core.results pre = [] /\
    Core.results (Core.dispatch cfg live req w) = [r] /\
    ((exists k c, r = Core.Artifact k c) \/ (exists k m, r = Core.Failure k m)) /\
    ~ ((exists k c, r = Core.Artifact k c) /\ (exists k m, r = Core.Failure k m)) /\
    List.length (Core.spawned (Core.dispatch cfg live req w)) <= 1 /\
    Core.running pre [] = [] /\
    Core.scratch pre [] = [] /\
    Core.occupancy pre live = live.
Proof.
  unfold Core.dispatch.
  destruct (Core.validate cfg req) as [message |].
  { exists [], (Core.Failure Core.ValidationError message).
    pose proof (result_variant (Core.Failure Core.ValidationError message)) as [? ?].
    simpl. repeat split; auto. }
  destruct w as [| | pid fate].
  - exists [], (Core.Failure Core.ExecutionTimeout (Core.notice cfg Core.TimedOut)).
    pose proof (result_variant
                  (Core.Failure Core.ExecutionTimeout (Core.notice cfg Core.TimedOut)))
      as [? ?].
    simpl. repeat split; auto.
  - destruct (Nat.ltb live (Core.capacity cfg)).
    + exists [Core.SlotTaken; Core.SlotReleased],
             (Core.Failure Core.InternalError (Core.notice cfg Core.Internal)).
      pose proof (result_variant
                    (Core.Failure Core.InternalError (Core.notice cfg Core.Internal)))
        as [? ?].
      simpl. repeat split; auto.
    + exists [], (Core.Failure Core.ResourceExceeded (Core.notice cfg Core.AtCapacity)).
      pose proof (result_variant
                    (Core.Failure Core.ResourceExceeded (Core.notice cfg Core.AtCapacity)))
        as [? ?].
      simpl. repeat split; auto.
  - destruct (Nat.ltb live (Core.capacity cfg)).
    + pose proof (result_variant (Core.conclude cfg fate)) as [? ?].
      destruct (Core.killed fate).
      * exists [Core.SlotTaken; Core.Spawned pid; Core.Killed pid; Core.Reaped pid;
                Core.ScratchRemoved pid; Core.SlotReleased],
               (Core.conclude cfg fate).
        cbn -[Core.remove_pid]. rewrite remove_pid_self. repeat split; auto.
      * exists [Core.SlotTaken; Core.Spawned pid; Core.Reaped pid;
                Core.ScratchRemoved pid; Core.SlotReleased],
               (Core.conclude cfg fate).
        cbn -[Core.remove_pid]. rewrite remove_pid_self. repeat split; auto.
    + exists [], (Core.Failure Core.ResourceExceeded (Core.notice cfg Core.AtCapacity)).
      pose proof (result_variant
                    (Core.Failure Core.ResourceExceeded (Core.notice cfg Core.AtCapacity)))
        as [? ?].
      simpl. repeat split; auto.
Qed.

(** C7: a worker that is forcibly terminated, by the wall-clock ceiling,
    the memory ceiling or the request deadline, never yields a success
    result: whatever partial output it had written, the one result of the
    request is a failure; for an admitted valid request the worker is
    killed and the failure is a timeout or a resource failure. *)
Theorem killed_worker_fails (cfg : Core.Settings) (live pid : nat)
    (req : Core.ExecutionRequest) (fate : Core.Fate)
    (Hk : Core.killed fate = true) :
  Core.is_failure (Core.conclude cfg fate) = true /\
  (exists k m,
     Core.results (Core.dispatch cfg live req (Core.Spawns pid fate)) =
       [Core.Failure k m]) /\
  (Core.validate cfg req = None -> live < Core.capacity cfg ->
   In (Core.Killed pid) (Core.dispatch cfg live req (Core.Spawns pid fate)) /\
   exists k m,
     Core.results (Core.dispatch cfg live req (Core.Spawns pid fate)) =
       [Core.Failure k m] /\
     (k = Core.ExecutionTimeout \/ k = Core.ResourceExceeded)).
Proof.
  destruct (conclude_killed cfg fate Hk) as (k & m & E & Hkind).
  split; [now rewrite E |]. split.
  - unfold Core.dispatch.
    destruct (Core.validate cfg req); [simpl; eauto |].
    destruct (Nat.ltb live (Core.capacity cfg)); [| simpl; eauto].
    rewrite Hk, E. simpl. eauto.
  - intros Hv Hlive. apply Nat.ltb_lt in Hlive.
    unfold Core.dispatch. rewrite Hv, Hlive, Hk, E. simpl.
    split; [auto |]. exists k, m. auto.
Qed.

Lemma killed_worker_fails_witness :
  let cfg := Core.mkSettings 4000 4 4096 500 (fun _ => false)
               (fun _ => "aGk=") (fun _ => "Execution timed out") in
  let fate := Core.ExceedsTime (Some (Core.Document "<html>")) in
  Core.killed fate = true /\
  Core.is_failure (Core.conclude cfg fate) = true.
Proof.
  intros cfg fate. split; [reflexivity |].
  exact (proj1 (killed_worker_fails cfg 0 7
                  (Core.mkRequest "while True: pass" "python" "static")
                  fate eq_refl)).
Defined.

(** C5: when a valid, admitted request runs to a clean exit and its
    artifact channel holds the sentinel, the one result is the failure of
    kind [NoOutput] with the message [No visualization was generated]; it
    travels as the [detail] of a failure response, not as a success
    response, and the client shows it.  The client also produces the same
    text itself when a 2xx response carries a type that is neither [image]
    nor [html]. *)
Theorem no_artifact_is_failure (cfg : Core.Settings) (live pid : nat)
    (req : Core.ExecutionRequest) (diagnostics : string) (st : Z) (s : State)
    (Hv : Core.validate cfg req = None)
    (Hlive : live < Core.capacity cfg)
    (Hd : Core.error_trace cfg diagnostics = false)
    (Hst : validateStatus st = false) :
  let r := Core.Failure Core.NoOutput "No visualization was generated" in
  Core.normalize cfg 0 Core.Sentinel diagnostics = r /\
  Core.results
    (Core.dispatch cfg live req
       (Core.Spawns pid (Core.Finishes 0 Core.Sentinel diagnostics false))) = [r] /\
  Core.respond r = Core.ReplyNon2xx "No visualization was generated" /\
  receive st (Core.respond r) =
    failure_response st "No visualization was generated" /\
  error (fst (generateVisualization (receive st (Core.respond r)) s)) =
    "No visualization was generated" /\
  (forall (d : VisualizationResponse) (t : State),
     type_ d <> "image" -> type_ d <> "html" ->
     error (fst (generateVisualization (Fulfilled d) t)) =
       "No visualization was generated").
Proof.
  cbv zeta.
  assert (En : Core.normalize cfg 0 Core.Sentinel diagnostics =
               Core.Failure Core.NoOutput "No visualization was generated").
  { unfold Core.normalize. rewrite Hd. reflexivity. }
  apply Nat.ltb_lt in Hlive.
  split; [exact En |]. split.
  { unfold Core.dispatch. rewrite Hv, Hlive. simpl. now rewrite En. }
  split; [reflexivity |]. split; [reflexivity |]. split; [reflexivity |].
  intros d t Hi Hh.
  apply String.eqb_neq in Hi. apply String.eqb_neq in Hh.
  unfold generateVisualization, generateVisualization_settle, on_response, str_eq.
  simpl. rewrite Hi, Hh. reflexivity.
Qed.

Lemma no_artifact_is_failure_witness :
  let cfg := Core.mkSettings 4000 4 4096 500 (fun _ => false)
               (fun _ => "aGk=") (fun _ => "Request rejected") in
  let req := Core.mkRequest "x = 1 + 1" "python" "static" in
  Core.validate cfg req = None /\
  0 < Core.capacity cfg /\
  Core.error_trace cfg EmptyString = false /\
  validateStatus 400 = false /\
  Core.results
    (Core.dispatch cfg 0 req
       (Core.Spawns 7 (Core.Finishes 0 Core.Sentinel EmptyString false))) =
    [Core.Failure Core.NoOutput "No visualization was generated"].
Proof.
  intros cfg req.
  assert (Hlive : 0 < Core.capacity cfg) by (simpl; lia).
  split; [reflexivity |]. split; [exact Hlive |].
  split; [reflexivity |]. split; [reflexivity |].
  exact (proj1 (proj2 (no_artifact_is_failure cfg 0 7 req EmptyString 400 initial
                         eq_refl Hlive eq_refl eq_refl))).
Defined.

(** * Further properties of the editor client *)

Lemma offered_language (x : Session) (v : string) :
  offered x (SelectLanguage v) = true -> In v languages.
Proof.
  cbn [offered]. rewrite menu_language. apply mem_In.
Qed.

Lemma offered_vizType (x : Session) (v : string) :
  offered x (SelectVizType v) = true -> In v vizTypes.
Proof.
  cbn [offered]. rewrite menu_vizType. apply mem_In.
Qed.

(** ** Requests in flight *)

(** X1: in a session at most one request is in flight; one is in flight
    exactly while [loading] is set, and the button can be clicked exactly
    when none is. *)
Theorem single_request_in_flight (x : Session) (H : reachable x) :
  inflight x <= 1 /\
  (loading (view x) = true <-> inflight x = 1) /\
  (offered x ClickGenerate = true <-> inflight x = 0).
Proof.
  cbn [offered]. rewrite button_enabled_render.
  destruct (session_settled_or_waiting x H) as [(Hl & Hn & _) | (Hl & Hn & _)];
    rewrite Hl, Hn; simpl; repeat split; intros; try lia; try discriminate;
    try reflexivity.
Qed.

Lemma single_request_in_flight_witness :
  let x := step ClickGenerate (step (SelectLanguage "r") start) in
  reachable x /\ inflight x <= 1 /\ offered x ClickGenerate = false.
Proof.
  intros x.
  assert (Hx : reachable x).
  { apply (run_reachable [SelectLanguage "r"; ClickGenerate] start);
      [exact reach_start | reflexivity]. }
  split; [exact Hx |].
  split; [exact (proj1 (single_request_in_flight x Hx)) | reflexivity].
Defined.

(** X2: every click on the button sends exactly one request and no other
    event sends any: after a run of events the requests sent are the
    earlier ones followed by as many new ones as there were clicks, and the
    number in flight is the clicks minus the settled ones. *)
Theorem one_request_per_click (es : list Event) (x y : Session)
    (H : run es x = Some y) :
  (exists new, sent y = (sent x ++ new)%list /\ List.length new = clicks es) /\
  inflight y + settles es = inflight x + clicks es.
Proof.
  revert x H. induction es as [| e rest IH]; intros x H; simpl in H.
  - injection H as <-. split; [| simpl; lia].
    exists []. split; [now rewrite app_nil_r | reflexivity].
  - destruct (offered x e) eqn:Hoff; [| discriminate].
    destruct (IH (step e x) H) as [(new & Hs & Hn) Hi].
    destruct e as [v | v | v | | r]; cbn [step sent inflight] in Hs, Hi;
      cbn [clicks settles].
    + split; [exists new; auto | exact Hi].
    + split; [exists new; auto | exact Hi].
    + split; [exists new; auto | exact Hi].
    + split; [| lia].
      exists (generateVisualization_request (view x) :: new).
      split; [now rewrite Hs, <- app_assoc | simpl; now rewrite Hn].
    + split; [exists new; auto |].
      cbn [offered] in Hoff.
      destruct (inflight x) as [| n]; [discriminate | simpl in Hi; lia].
Qed.

Lemma one_request_per_click_witness :
  let es := [ClickGenerate; EditorChange (Some "x <- 1");
             Settle (Rejected (mkAxiosError None)); ClickGenerate] in
  let y := step ClickGenerate
             (step (Settle (Rejected (mkAxiosError None)))
                (step (EditorChange (Some "x <- 1")) (step ClickGenerate start))) in
  run es start = Some y /\
  inflight y + settles es = inflight start + clicks es.
Proof.
  intros es y.
  assert (Hr : run es start = Some y) by reflexivity.
  split; [exact Hr | exact (proj2 (one_request_per_click es start y Hr))].
Defined.



(** ** What the tree shows *)

Lemma result_typed_invariant (x : Session) :
  reachable x -> result_typed (view x).
Proof.
  induction 1 as [| x e Hx IH Hoff].
  - left. split; reflexivity.
  - destruct e as [v | v | v | | r]; cbn [step view].
    + unfold handleLanguageChange.
      destruct (sample v (vizType (view x))); exact IH.
    + unfold handleVizTypeChange.
      destruct (sample (language (view x)) v); exact IH.
    + destruct v; exact IH.
    + left. split; reflexivity.
    + unfold generateVisualization_settle, result_typed.
      destruct r as [d | err]; cbn [visualizationType visualization setLoading].
      * unfold on_response.
        destruct (str_eq (type_ d) "image"); [right; left; reflexivity |].
        destruct (str_eq (type_ d) "html"); [right; right; reflexivity |].
        exact IH.
      * exact IH.
Qed.

(** X4: in a session the tree never shows the error banner together with
    an image or frame: after the controls it shows nothing, one error
    banner, or one visualization. *)
Theorem never_error_with_visualization (x : Session) (H : reachable x) :
  render (view x) = controls (view x) \/
  render (view x) = (controls (view x) ++ [ErrorMessage (error (view x))])%list \/
  (exists e, is_visual e = true /\
             render (view x) = (controls (view x) ++ [e])%list).
Proof.
  unfold render, error_view, visualization_view.
  destruct (session_error_visualization_exclusive x H) as [E | E]; rewrite E;
    cbn [truthy].
  - cbn [app]. destruct (truthy (visualization (view x))).
    + right. right. eexists. split; [| reflexivity].
      destruct (str_eq (visualizationType (view x)) "image"); reflexivity.
    + left. now rewrite app_nil_r.
  - rewrite app_nil_r. destruct (truthy (error (view x))).
    + right. left. reflexivity.
    + left. now rewrite app_nil_r.
Qed.

Lemma never_error_with_visualization_witness :
  let x := step (Settle (failure_response 400 "Unsupported language"))
             (step ClickGenerate
                (step (Settle (Fulfilled (mkResponse "image" "iVBORw0KGgo=")))
                   (step ClickGenerate start))) in
  reachable x /\
  (render (view x) = controls (view x) \/
   render (view x) = (controls (view x) ++ [ErrorMessage (error (view x))])%list \/
   (exists e, is_visual e = true /\
              render (view x) = (controls (view x) ++ [e])%list)).
Proof.
  intros x.
  assert (Hx : reachable x).
  { apply (run_reachable
             [ClickGenerate; Settle (Fulfilled (mkResponse "image" "iVBORw0KGgo="));
              ClickGenerate; Settle (failure_response 400 "Unsupported language")]
             start); [exact reach_start | reflexivity]. }
  split; [exact Hx | exact (never_error_with_visualization x Hx)].
Defined.

(** X5: while a request is in flight the tree consists of the controls
    only (the earlier error or visualization is gone), the button is
    disabled, carries the spinner and reads [Generating...], and a click is
    not offered. *)
Theorem waiting_view (x : Session) (H : reachable x)
    (Hw : inflight x <> 0) :
  render (view x) = controls (view x) /\
  In (StyledButton true true "Generating...") (render (view x)) /\
  offered x ClickGenerate = false.
Proof.
  destruct (session_settled_or_waiting x H) as [(_ & Hn & _) | (Hl & _ & He & Hv)];
    [contradiction |].
  assert (R : render (view x) = controls (view x)).
  { unfold render, error_view, visualization_view. rewrite He, Hv.
    cbn [truthy app]. now rewrite app_nil_r. }
  split; [exact R |]. split.
  - rewrite R. unfold controls. rewrite Hl. simpl. auto.
  - cbn [offered]. rewrite button_enabled_render, Hl. reflexivity.
Qed.

Lemma waiting_view_witness :
  let x := step (SelectLanguage "r")
             (step ClickGenerate
                (step (Settle (failure_response 500 "boom"))
                   (step ClickGenerate start))) in
  reachable x /\ inflight x <> 0 /\ render (view x) = controls (view x).
Proof.
  intros x.
  assert (Hx : reachable x).
  { apply (run_reachable
             [ClickGenerate; Settle (failure_response 500 "boom");
              ClickGenerate; SelectLanguage "r"] start);
      [exact reach_start | reflexivity]. }
  assert (Hw : inflight x <> 0) by (simpl; discriminate).
  split; [exact Hx |]. split; [exact Hw |].
  exact (proj1 (waiting_view x Hx Hw)).
Defined.

(** X6: in a session an inline frame is shown only for content that came
    with type [html] and an image only for content that came with type
    [image]: although the tree renders a frame for every type other than
    [image], no other type ever accompanies a non-empty visualization. *)
Theorem frame_only_for_html (x : Session) (e : Element) (H : reachable x)
    (Hin : In e (render (view x))) (Hv : is_visual e = true) :
  (visualizationType (view x) = "image" /\
   e = Img ("data:image/png;base64," ++ visualization (view x)) "Visualization") \/
  (visualizationType (view x) = "html" /\
   e = Iframe (visualization (view x)) "Interactive Visualization"
              "allow-scripts allow-same-origin allow-popups").
Proof.
  pose proof (result_typed_invariant x H) as T.
  unfold render, error_view, visualization_view in Hin.
  apply in_app_or in Hin. destruct Hin as [Hin | Hin].
  { unfold controls in Hin. simpl in Hin.
    repeat (destruct Hin as [Hin | Hin]; [subst e; discriminate Hv |]).
    contradiction. }
  apply in_app_or in Hin. destruct Hin as [Hin | Hin].
  { destruct (truthy (error (view x))); simpl in Hin;
      [destruct Hin as [Hin | []]; subst e; discriminate Hv | contradiction]. }
  destruct (truthy (visualization (view x))) eqn:Et; [| contradiction].
  destruct Hin as [Hin | []]. subst e.
  destruct T as [(_ & T) | [T | T]].
  - rewrite T in Et. discriminate.
  - left. rewrite T. split; reflexivity.
  - right. rewrite T. split; reflexivity.
Qed.

Lemma frame_only_for_html_witness :
  let x := step (Settle (Fulfilled (mkResponse "html" "<html></html>")))
             (step ClickGenerate start) in
  let e := Iframe "<html></html>" "Interactive Visualization"
                  "allow-scripts allow-same-origin allow-popups" in
  reachable x /\ In e (render (view x)) /\ is_visual e = true /\
  visualizationType (view x) = "html".
Proof.
  intros x e.
  assert (Hx : reachable x).
  { apply (run_reachable
             [ClickGenerate; Settle (Fulfilled (mkResponse "html" "<html></html>"))]
             start); [exact reach_start | reflexivity]. }
  assert (Hin : In e (render (view x))).
  { simpl. do 5 right. left. reflexivity. }
  split; [exact Hx |]. split; [exact Hin |]. split; [reflexivity |].
  destruct (frame_only_for_html x e Hx Hin eq_refl) as [[_ E] | [T _]].
  - discriminate E.
  - exact T.
Defined.


(** ** Menus, table and editor *)



(** X9: choosing a language and a visualization type from the menus gives
    the same state in either order, whatever the state before: the chosen
    pair is stored and the editor holds the sample of that pair. *)
Theorem menu_selections_commute (s : State) (l v : string)
    (Hl : In l languages) (Hv : In v vizTypes) :
  exists text,
    sample l v = Found text /\
    state_of (handleVizTypeChange v (state_of (handleLanguageChange l s))) =
      setCode (Some text) (setVizType v (setLanguage l s)) /\
    state_of (handleLanguageChange l (state_of (handleVizTypeChange v s))) =
      setCode (Some text) (setVizType v (setLanguage l s)).
Proof.
  destruct (sample_found l v Hl Hv) as [text E]. exists text.
  split; [exact E |]. split.
  - unfold handleLanguageChange.
    pose proof (sample_language_no_throw l (vizType s) Hl) as Hn.
    destruct (sample l (vizType s)) as [t | |]; [| | contradiction];
      cbn [state_of]; unfold handleVizTypeChange;
      cbn [language setCode setLanguage]; rewrite E; reflexivity.
  - unfold handleVizTypeChange.
    destruct (sample (language s) v) as [t | |];
      cbn [state_of]; unfold handleLanguageChange;
      cbn [vizType setCode setVizType]; rewrite E; reflexivity.
Qed.

Lemma menu_selections_commute_witness :
  In "r" languages /\ In "3d" vizTypes /\
  state_of (handleVizTypeChange "3d" (state_of (handleLanguageChange "r" initial))) =
  state_of (handleLanguageChange "r" (state_of (handleVizTypeChange "3d" initial))).
Proof.
  assert (Hl : In "r" languages) by (simpl; auto).
  assert (Hv : In "3d" vizTypes) by (simpl; auto).
  split; [exact Hl |]. split; [exact Hv |].
  destruct (menu_selections_commute initial "r" "3d" Hl Hv) as (text & _ & E1 & E2).
  rewrite E1, E2. reflexivity.
Defined.

Lemma shows_sample_run (es : list Event) (x y : Session) :
  well_typed (view x) -> shows_sample (view x) ->
  run es x = Some y -> forallb (fun e => negb (is_edit e)) es = true ->
  well_typed (view y) /\ shows_sample (view y).
Proof.
  revert x. induction es as [| e rest IH]; intros x Hw Hs Hrun Hne; simpl in Hrun.
  - injection Hrun as <-. now split.
  - destruct (offered x e) eqn:Hoff; [| discriminate].
    simpl in Hne. apply andb_prop in Hne. destruct Hne as [He Hrest].
    apply (IH (step e x)); try assumption.
    + destruct e as [v | v | v | | r]; cbn [step view].
      * apply handleLanguageChange_typed; [now apply offered_language in Hoff | exact Hw].
      * apply handleVizTypeChange_typed; [now apply offered_vizType in Hoff | exact Hw].
      * now apply handleCodeChange_typed.
      * now apply begin_typed.
      * now apply settle_typed.
    + destruct Hw as (Hl & Ht & _).
      destruct e as [v | v | v | | r]; cbn [step view].
      * apply offered_language in Hoff.
        destruct (sample_found v (vizType (view x)) Hoff Ht) as [text E].
        unfold handleLanguageChange, shows_sample. rewrite E.
        cbn [state_of code language vizType setCode setLanguage].
        now rewrite E.
      * apply offered_vizType in Hoff.
        destruct (sample_found (language (view x)) v Hl Hoff) as [text E].
        unfold handleVizTypeChange, shows_sample. rewrite E.
        cbn [state_of code language vizType setCode setVizType].
        now rewrite E.
      * destruct v; [discriminate He | exact Hs].
      * exact Hs.
      * unfold shows_sample, generateVisualization_settle.
        destruct r as [d | err]; cbn [setLoading code language vizType].
        -- unfold on_response.
           destruct (str_eq (type_ d) "image"); [exact Hs |].
           destruct (str_eq (type_ d) "html"); exact Hs.
        -- exact Hs.
Qed.

(** X10: as long as the editor has reported no string, the editor holds
    the sample of the current selection: after any run of menu choices,
    clicks, settled requests and [undefined] reports from the start, the
    code is [SAMPLE_CODES[language][vizType]], a string. *)
Theorem sample_shown_until_edit (es : list Event) (y : Session)
    (Hrun : run es start = Some y)
    (Hne : forallb (fun e => negb (is_edit e)) es = true) :
  exists text,
    sample (language (view y)) (vizType (view y)) = Found text /\
    code (view y) = Some text.
Proof.
  destruct (shows_sample_run es start y well_typed_initial eq_refl Hrun Hne)
    as [(Hl & Ht & _) Hs].
  destruct (sample_found _ _ Hl Ht) as [text E].
  exists text. split; [exact E |].
  unfold shows_sample in Hs. now rewrite E in Hs.
Qed.

Lemma sample_shown_until_edit_witness :
  let es := [SelectVizType "3d"; ClickGenerate; SelectLanguage "r";
             EditorChange None; Settle (Rejected (mkAxiosError None))] in
  let y := step (Settle (Rejected (mkAxiosError None)))
             (step (EditorChange None)
                (step (SelectLanguage "r")
                   (step ClickGenerate (step (SelectVizType "3d") start)))) in
  run es start = Some y /\
  forallb (fun e => negb (is_edit e)) es = true /\
  code (view y) = Some Samples.r_3d.
Proof.
  intros es y.
  assert (Hrun : run es start = Some y) by reflexivity.
  assert (Hne : forallb (fun e => negb (is_edit e)) es = true) by reflexivity.
  split; [exact Hrun |]. split; [exact Hne |].
  destruct (sample_shown_until_edit es y Hrun Hne) as (text & E & C).
  rewrite C. injection E as <-. reflexivity.
Defined.

(** X11: the two halves of the component do not touch each other's cells:
    a menu choice or an editor report leaves [visualization],
    [visualizationType], [error] and [loading] as they were (a shown result
    stays on screen when the selection changes), and a click or a settling
    request leaves [language], [vizType] and [code] as they were (what the
    user typed while waiting survives the response). *)
Theorem events_keep_the_other_cells (e : Event) (x : Session) :
  let s := view x in
  let s' := view (step e x) in
  match e with
  | SelectLanguage _ | SelectVizType _ | EditorChange _ =>
      visualization s' = visualization s /\
      visualizationType s' = visualizationType s /\
      error s' = error s /\ loading s' = loading s /\
      render s' = (controls s' ++ error_view s ++ visualization_view s)%list
  | ClickGenerate | Settle _ =>
      language s' = language s /\ vizType s' = vizType s /\ code s' = code s
  end.
Proof.
  cbv zeta. destruct e as [v | v | v | | r]; cbn [step view].
  - unfold handleLanguageChange.
    destruct (sample v (vizType (view x))); repeat split.
  - unfold handleVizTypeChange.
    destruct (sample (language (view x)) v); repeat split.
  - destruct v; repeat split.
  - repeat split.
  - unfold generateVisualization_settle.
    destruct r as [d | err]; cbn [setLoading language vizType code].
    + unfold on_response.
      destruct (str_eq (type_ d) "image"); [repeat split |].
      destruct (str_eq (type_ d) "html"); repeat split.
    + repeat split.
Qed.
